(** * Watcher profiler instrumentation and decision-engine start-up

    A shallow embedding of

    - [watcher/common/profiler.py]  ([MemoryTracker], [trace_with_memory],
      [is_profiling_enabled]),
    - [watcher/conf/profiler.py]    (the [profiler] option group),
    - [watcher/decision_engine/service.py] ([DecisionEngineService.start]),

    together with the properties of the instrumentation layer.

    Python code is embedded in a state-and-exception monad over an explicit
    process state.  The libraries the code calls but does not define (psutil,
    osprofiler, oslo.log) are replaced by recording doubles: each call is
    logged in the state and its outcome is read from the state. *)

From Stdlib Require Import ZArith.
From Stdlib Require Import Floats.PrimFloat Floats.FloatOps Floats.SpecFloat.
From stdpp Require Import base option list gmap strings pretty.

Set Default Proof Using "Type".
Local Open Scope string_scope.
Local Open Scope list_scope.

(** ** Python values and exceptions *)

(** Instances of [Exception] and of its subclasses: what a clause
    [except Exception] catches. *)
Record exn := Exn { exn_class : string; exn_msg : string }.

Inductive outcome (A : Type) : Type :=
| Return (a : A)
| Raise (e : exn).
Arguments Return {A} a.
Arguments Raise {A} e.

Definition AttributeError (msg : string) : exn := Exn "AttributeError" msg.
Definition OverflowError (msg : string) : exn := Exn "OverflowError" msg.

(** The objects that reach the tracker as a correlation id.  [PyObject]
    stands for an instance of any other class, described by what [bool()]
    and [str()] do on it. *)
Inductive pyobj : Type :=
| PyNone
| PyBool (b : bool)
| PyInt (n : Z)
| PyStr (s : string)
| PyObject (truth : outcome bool) (repr : outcome string).

(** [bool(o)] *)
Definition py_bool (o : pyobj) : outcome bool :=
  match o with
  | PyNone => Return false
  | PyBool b => Return b
  | PyInt n => Return (negb (n =? 0)%Z)
  | PyStr s => Return (negb (String.eqb s ""))
  | PyObject truth _ => truth
  end.

(** [str(o)] *)
Definition py_str (o : pyobj) : outcome string :=
  match o with
  | PyNone => Return "None"
  | PyBool true => Return "True"
  | PyBool false => Return "False"
  | PyInt n => Return (pretty n)
  | PyStr s => Return s
  | PyObject _ repr => repr
  end.

(** What an [info] callable may return: a dict, or an object without a
    dict-like [get]. *)
Inductive pymeta : Type :=
| MetaDict (d : gmap string pyobj)
| MetaOther.

(** [metadata.get(key)] *)
Definition meta_get (metadata : pymeta) (key : string) : outcome pyobj :=
  match metadata with
  | MetaDict d => Return (default PyNone (d !! key))
  | MetaOther => Raise (AttributeError "object has no attribute 'get'")
  end.

(** Values of the mapping handed to [profiler.stop]. *)
Inductive span_val : Type :=
| SFloat (x : float)
| SStr (s : string)
| SNone.

(** ** Float arithmetic of [rss / 1024 / 1024]

    [rss] is a Python [int]; [int / int] is true division, the exact quotient
    rounded to the nearest binary64 value, and raises [OverflowError] when
    that value is out of range.  The second division is on floats. *)
Definition int_truediv_1024 (n : Z) : outcome float :=
  match binary_normalize prec emax n (-10) false with
  | S754_infinity _ =>
      Raise (OverflowError "integer division result too large for a float")
  | x => Return (SF2Prim x)
  end.

Definition rss_to_mb (rss : Z) : outcome float :=
  match int_truediv_1024 rss with
  | Return x => Return (x / 1024)%float
  | Raise e => Raise e
  end.

(** ** Configuration: the [profiler] option group *)

Record Conf := mkConf {
  enabled : bool;
  trace_audit_execution : bool;
  trace_memory_usage : bool
}.

(** [profiler_opts_list]: name and default of the options the repository
    adds to osprofiler's own ([enabled], default [False]). *)
Definition profiler_opts_list : list (string * bool) :=
  [("trace_audit_execution", true); ("trace_memory_usage", true)].

Definition default_conf (enabled_flag : bool) : Conf :=
  {| enabled := enabled_flag;
     trace_audit_execution := true;
     trace_memory_usage := true |}.

(** ** The monad of Python statements

    A statement acts on a state and either returns or raises; the state it
    leaves is kept in both cases. *)

Section Monad.

Context {State : Type}.

Definition M (A : Type) : Type := State -> outcome A * State.

Definition ret {A} (a : A) : M A := fun w => (Return a, w).

Definition bind {A B} (c : M A) (k : A -> M B) : M B :=
  fun w =>
    match c w with
    | (Return a, w') => k a w'
    | (Raise e, w') => (Raise e, w')
    end.

Definition raise {A} (e : exn) : M A := fun w => (Raise e, w).

(** [try: c  except Exception as e: h e] *)
Definition try_except {A} (c : M A) (h : exn -> M A) : M A :=
  fun w =>
    match c w with
    | (Return a, w') => (Return a, w')
    | (Raise e, w') => h e w'
    end.

(** [try: c  finally: f] *)
Definition try_finally {A} (c : M A) (f : M unit) : M A :=
  fun w =>
    match c w with
    | (r, w') =>
        match f w' with
        | (Return _, w'') => (r, w'')
        | (Raise e, w'') => (Raise e, w'')
        end
    end.

(** The outcome of an expression that does not touch the state. *)
Definition eval {A} (o : outcome A) : M A := fun w => (o, w).

End Monad.

Arguments M : clear implicits.

Declare Scope py_scope.
Delimit Scope py_scope with py.
Notation "'let*' x ':=' c 'in' k" := (bind c (fun x => k))
  (at level 10, x name, c at level 100, k at level 200) : py_scope.
Notation "'run' c 'in' k" := (bind c (fun _ => k))
  (at level 10, c at level 100, k at level 200) : py_scope.
Local Open Scope py_scope.

(** ** The tracked object and the process state *)

(** Attributes of a [MemoryTracker] instance.  [self.process], the psutil
    handle of the running process, is the psutil double of the state below. *)
Record MemoryTracker := mkTracker {
  trace_name : string;
  audit_id : pyobj;
  mem_baseline : option float;
  mem_peak : option float
}.

(** [self.mem_baseline = v] and [self.mem_peak = v] on the attributes. *)
Definition assign_mem_baseline (v : option float) (t : MemoryTracker) : MemoryTracker :=
  mkTracker (trace_name t) (audit_id t) v (mem_peak t).
Definition assign_mem_peak (v : option float) (t : MemoryTracker) : MemoryTracker :=
  mkTracker (trace_name t) (audit_id t) (mem_baseline t) v.

(** Calls received by the osprofiler double. *)
Inductive tracer_call : Type :=
| TraceStart (name : string)
| TraceStop (info : option (gmap string span_val)).

(** A reference to a [MemoryTracker] instance: its position in the heap. *)
Abbreviation ref := nat.

Section Process.

(** State of the business logic. *)
Context {St : Type}.

Record World := mkWorld {
  conf : Conf;                      (* CONF.profiler *)
  app : St;                         (* what the wrapped callables act on *)
  rss_feed : nat -> outcome Z;      (* psutil: outcome of the n-th memory_info().rss *)
  samples : nat;                    (* psutil: memory_info() calls so far *)
  current_profiler : bool;          (* osprofiler: profiler.get() is not None *)
  tracer_calls : list tracer_call;  (* osprofiler: calls so far, oldest first *)
  warnings : list string;           (* oslo.log: LOG.warning records, oldest first *)
  heap : list MemoryTracker         (* MemoryTracker instances *)
}.

Definition with_app (s : St) (w : World) : World :=
  mkWorld (conf w) s (rss_feed w) (samples w) (current_profiler w)
          (tracer_calls w) (warnings w) (heap w).
Definition with_samples (n : nat) (w : World) : World :=
  mkWorld (conf w) (app w) (rss_feed w) n (current_profiler w)
          (tracer_calls w) (warnings w) (heap w).
Definition with_tracer_calls (c : list tracer_call) (w : World) : World :=
  mkWorld (conf w) (app w) (rss_feed w) (samples w) (current_profiler w)
          c (warnings w) (heap w).
Definition with_warnings (l : list string) (w : World) : World :=
  mkWorld (conf w) (app w) (rss_feed w) (samples w) (current_profiler w)
          (tracer_calls w) l (heap w).
Definition with_heap (h : list MemoryTracker) (w : World) : World :=
  mkWorld (conf w) (app w) (rss_feed w) (samples w) (current_profiler w)
          (tracer_calls w) (warnings w) h.

End Process.

Arguments World : clear implicits.

(** ** The libraries the module calls *)

Section Collaborators.

Context {St : Type}.

(** [CONF.profiler] *)
Definition CONF_profiler : M (World St) Conf := fun w => (Return (conf w), w).

(** [self.process.memory_info().rss] (psutil): the call is counted and
    its outcome, the resident set size in bytes or an error, is the next
    one of the feed. *)
Definition memory_info_rss : M (World St) Z :=
  fun w => (rss_feed w (samples w), with_samples (S (samples w)) w).

(** [LOG.warning(fmt, e)] (oslo.log) *)
Definition LOG_warning (fmt : string) (e : exn) : M (World St) unit :=
  fun w => (Return tt, with_warnings (warnings w ++ [fmt +:+ exn_msg e]) w).

(** [profiler.get()] (osprofiler) *)
Definition profiler_get : M (World St) bool :=
  fun w => (Return (current_profiler w), w).

(** [profiler.start(name)] (osprofiler) *)
Definition profiler_start (name : string) : M (World St) unit :=
  fun w => (Return tt, with_tracer_calls (tracer_calls w ++ [TraceStart name]) w).

(** [profiler.stop(info)] (osprofiler) *)
Definition profiler_stop (info : option (gmap string span_val)) : M (World St) unit :=
  fun w => (Return tt, with_tracer_calls (tracer_calls w ++ [TraceStop info]) w).

(** [profiler.trace(name, info=info)(f)] (osprofiler): the decorated
    callable opens a span, runs [f] and closes the span whatever [f] does.
    The double keeps the name only. *)
Definition profiler_trace {Args Val I : Type}
    (name : string) (info : I) (f : Args -> M (World St) Val) (args : Args) : M (World St) Val :=
  run profiler_start name in
  try_finally (f args) (profiler_stop None).

(** *** Attributes of heap objects *)

Definition new_object (t : MemoryTracker) : M (World St) ref :=
  fun w => (Return (length (heap w)), with_heap (heap w ++ [t]) w).

Definition get_attr {A} (self : ref) (attr : MemoryTracker -> A) : M (World St) A :=
  fun w =>
    match heap w !! self with
    | Some t => (Return (attr t), w)
    | None => (Raise (AttributeError "no such object"), w)
    end.

Definition set_mem_baseline (self : ref) (v : option float) : M (World St) unit :=
  fun w =>
    (Return tt,
     with_heap (alter (assign_mem_baseline v) self (heap w)) w).

Definition set_mem_peak (self : ref) (v : option float) : M (World St) unit :=
  fun w =>
    (Return tt,
     with_heap (alter (assign_mem_peak v) self (heap w)) w).

End Collaborators.

(** ** [watcher/common/profiler.py] *)

(** [a - b] on attributes that hold a float or [None] *)
Definition py_sub (a b : option float) : outcome float :=
  match a, b with
  | Some x, Some y => Return (x - y)%float
  | _, _ => Raise (Exn "TypeError" "unsupported operand type(s) for -")
  end.

(** A float-or-[None] attribute as a value of the published mapping. *)
Definition span_of (a : option float) : span_val :=
  match a with
  | Some x => SFloat x
  | None => SNone
  end.

Definition is_not_None {A} (a : option A) : bool :=
  match a with
  | Some _ => true
  | None => false
  end.

Section Profiler.

Context {St Args Val : Type}.

(** Python's [None] among the results of the wrapped callables. *)
Variable VNone : Val.

(** *** [class MemoryTracker] *)

(** [psutil.Process()], the handle of the running process, is taken to be
    built without error. *)
Definition MemoryTracker__init__ (trace_name : string) (audit_id : pyobj)
  : M (World St) ref :=
  new_object (mkTracker trace_name audit_id None None).

Definition MemoryTracker__enter__ (self : ref) : M (World St) ref :=
  let* c := CONF_profiler in
  run (if trace_memory_usage c then
         try_except
           (let* rss := memory_info_rss in
            let* mb := eval (rss_to_mb rss) in
            set_mem_baseline self (Some mb))
           (fun e =>
              run LOG_warning "Failed to capture baseline memory: " e in
              set_mem_baseline self None)
       else ret tt) in
  ret self.

Definition MemoryTracker__exit__ (self : ref) (exc : option exn) : M (World St) bool :=
  let* c := CONF_profiler in
  let* guard :=
    (if trace_memory_usage c then
       let* baseline := get_attr self mem_baseline in
       ret (is_not_None baseline)
     else ret false) in
  run (if guard then
         try_except
           (let* rss := memory_info_rss in
            let* mb := eval (rss_to_mb rss) in
            run set_mem_peak self (Some mb) in
            let* peak := get_attr self mem_peak in
            let* baseline := get_attr self mem_baseline in
            let* mem_delta := eval (py_sub peak baseline) in
            let* baseline := get_attr self mem_baseline in
            let* peak := get_attr self mem_peak in
            let* aid := get_attr self audit_id in
            let* truth := eval (py_bool aid) in
            let* aid_str :=
              (if truth then
                 let* s := eval (py_str aid) in ret (SStr s)
               else ret SNone) in
            profiler_stop
              (Some {[ "memory_baseline_mb" := span_of baseline;
                       "memory_peak_mb" := span_of peak;
                       "memory_delta_mb" := SFloat mem_delta;
                       "audit_id" := aid_str ]}))
           (fun e => LOG_warning "Failed to capture peak memory: " e)
       else ret tt) in
  ret false.

(** [with mgr: body], for a [MemoryTracker] [mgr].  The result is [None]
    when [__exit__] asks for the exception of [body] to be suppressed. *)
Definition with_MemoryTracker {A} (mgr : ref) (body : M (World St) A) : M (World St) (option A) :=
  run MemoryTracker__enter__ mgr in
  fun w =>
    match body w with
    | (Return v, w') =>
        (run MemoryTracker__exit__ mgr None in ret (Some v)) w'
    | (Raise e, w') =>
        (let* suppress := MemoryTracker__exit__ mgr (Some e) in
         if suppress then ret None else raise e) w'
    end.

(** *** [trace_with_memory] *)

(** The [info] argument: absent, a dict, or a callable on the arguments of
    the call (which may read the state of the business logic). *)
Inductive info_arg : Type :=
| InfoNone
| InfoDict (d : gmap string pyobj)
| InfoCallable (f : Args -> St -> outcome pymeta).

(** [bool(info)] *)
Definition info_truth (info : info_arg) : bool :=
  match info with
  | InfoNone => false
  | InfoDict d => negb (Nat.eqb (size d) 0)
  | InfoCallable _ => true
  end.

(** [callable(info)] *)
Definition callable (info : info_arg) : bool :=
  match info with
  | InfoCallable _ => true
  | _ => false
  end.

(** [info] called on the arguments of the call *)
Definition call_info (info : info_arg) (args : Args) : M (World St) pymeta :=
  match info with
  | InfoCallable f => fun w => (f args (app w), w)
  | _ => raise (Exn "TypeError" "object is not callable")
  end.

(** A callable of the business logic called on the arguments of the call *)
Definition call (func : Args -> St -> outcome Val * St) (args : Args) : M (World St) Val :=
  fun w => let (r, s) := func args (app w) in (r, with_app s w).

Definition wrapper (name : string) (info : info_arg)
    (traced_func : Args -> M (World St) Val) (args : Args) : M (World St) Val :=
  let* audit_id :=
    (if info_truth info && callable info then
       try_except
         (let* metadata := call_info info args in
          eval (meta_get metadata "audit_id"))
         (fun _ => ret PyNone)
     else ret PyNone) in
  let* mgr := MemoryTracker__init__ name audit_id in
  let* r := with_MemoryTracker mgr (traced_func args) in
  ret (default VNone r).

Definition trace_with_memory (name : string) (info : info_arg)
    (func : Args -> St -> outcome Val * St) : Args -> M (World St) Val :=
  let traced_func := profiler_trace name info (call func) in
  wrapper name info traced_func.

(** *** [is_profiling_enabled] *)

Definition is_profiling_enabled : M (World St) bool :=
  let* c := CONF_profiler in
  if enabled c then profiler_get else ret false.

End Profiler.

(** ** [watcher/decision_engine/service.py] *)

Module DecisionEngine.

(** What the service asks of the code it is built on, in the order asked. *)
Inductive event : Type :=
| BaseStart          (* watcher_service.Service.start *)
| AdminContext       (* context.get_admin_context().to_dict() *)
| GetHostname        (* socket.gethostname() *)
| InitFromConf       (* osprofiler_initializer.init_from_conf *)
| NewScheduler       (* scheduling.DecisionEngineSchedulingService() *)
| SchedulerStart
| NewHandler         (* c_handler.ContinuousAuditHandler() *)
| HandlerStart
| LogInfo (msg : string)
| LogWarning (msg : string).

(** How each of these operations ends: [None] for a normal return. *)
Record Env := mkEnv {
  base_start : option exn;
  admin_context : option exn;
  gethostname : option exn;
  init_from_conf : option exn;
  new_scheduler : option exn;
  scheduler_start : option exn;
  new_handler : option exn;
  handler_start : option exn
}.

(** A background service owned by the decision engine. *)
Record Subservice := mkSub { running : bool }.

Record Service := mkService {
  profiler_enabled : bool;                  (* CONF.profiler.enabled *)
  env : Env;
  base_running : bool;
  profiler_initialized : bool;
  _bg_scheduler : option Subservice;
  _continuous_handler : option Subservice;
  journal : list event                      (* oldest first *)
}.

Definition with_journal (j : list event) (s : Service) : Service :=
  mkService (profiler_enabled s) (env s) (base_running s)
            (profiler_initialized s) (_bg_scheduler s) (_continuous_handler s) j.
Definition with_base_running (b : bool) (s : Service) : Service :=
  mkService (profiler_enabled s) (env s) b
            (profiler_initialized s) (_bg_scheduler s) (_continuous_handler s)
            (journal s).
Definition with_profiler_initialized (b : bool) (s : Service) : Service :=
  mkService (profiler_enabled s) (env s) (base_running s)
            b (_bg_scheduler s) (_continuous_handler s) (journal s).
Definition with_bg_scheduler (o : option Subservice) (s : Service) : Service :=
  mkService (profiler_enabled s) (env s) (base_running s)
            (profiler_initialized s) o (_continuous_handler s) (journal s).
Definition with_continuous_handler (o : option Subservice) (s : Service) : Service :=
  mkService (profiler_enabled s) (env s) (base_running s)
            (profiler_initialized s) (_bg_scheduler s) o (journal s).

(** [DecisionEngineService.__init__], in a process whose collaborators
    behave as [e] says. *)
Definition __init__ (enabled : bool) (e : Env) : Service :=
  mkService enabled e false false None None [].

(** An operation of the environment: it is recorded, then it returns or
    raises as the environment says, and [effect] is applied when it
    returns. *)
Definition external (ev : event) (result : Env -> option exn)
    (effect : Service -> Service) : M Service unit :=
  fun s =>
    let s' := with_journal (journal s ++ [ev]) s in
    match result (env s) with
    | None => (Return tt, effect s')
    | Some e => (Raise e, s')
    end.

Definition log (ev : event) : M Service unit :=
  fun s => (Return tt, with_journal (journal s ++ [ev]) s).

(** The [bg_scheduler] property *)
Definition bg_scheduler : M Service unit :=
  fun s =>
    match _bg_scheduler s with
    | None => external NewScheduler new_scheduler
                       (with_bg_scheduler (Some (mkSub false))) s
    | Some _ => (Return tt, s)
    end.

(** The [continuous_handler] property *)
Definition continuous_handler : M Service unit :=
  fun s =>
    match _continuous_handler s with
    | None => external NewHandler new_handler
                       (with_continuous_handler (Some (mkSub false))) s
    | Some _ => (Return tt, s)
    end.

(** [DecisionEngineService.start] *)
Definition start : M Service unit :=
  run external BaseStart base_start (with_base_running true) in
  let* enabled := (fun s => (Return (profiler_enabled s), s)) in
  run (if enabled : bool then
         try_except
           (run external AdminContext admin_context id in
            run external GetHostname gethostname id in
            run external InitFromConf init_from_conf
                         (with_profiler_initialized true) in
            log (LogInfo "OSProfiler initialized successfully for decision engine"))
           (fun e =>
              log (LogWarning ("Failed to initialize osprofiler: " +:+ exn_msg e
                               +:+ ". Profiling will be disabled.")))
       else ret tt) in
  run bg_scheduler in
  run external SchedulerStart scheduler_start
               (fun s => with_bg_scheduler (Some (mkSub true)) s) in
  run continuous_handler in
  external HandlerStart handler_start
           (fun s => with_continuous_handler (Some (mkSub true)) s).

End DecisionEngine.

(** ** What one invocation does, as functions of the state it starts in

    The definitions of this part are not translations of code: they state
    what the code computes, and the lemmas of the next part prove that it
    does. *)

Section Runs.

Context {St Args Val : Type}.

Definition with_conf (c : Conf) (w : World St) : World St :=
  mkWorld c (app w) (rss_feed w) (samples w) (current_profiler w)
          (tracer_calls w) (warnings w) (heap w).

(** Calls the tracer received after state [w], up to state [w']. *)
Definition calls_since (w w' : World St) : list tracer_call :=
  drop (length (tracer_calls w)) (tracer_calls w').


(** Outcome of the sampling expression
    [self.process.memory_info().rss / 1024 / 1024] in state [w]. *)
Definition sample_mb (w : World St) : outcome float :=
  match rss_feed w (samples w) with
  | Return rss => rss_to_mb rss
  | Raise e => Raise e
  end.

(** Outcome of the second sampling of an invocation started in [w]. *)
Definition sample_mb_on_exit (w : World St) : outcome float :=
  sample_mb (with_samples (S (samples w)) w).

(** The [audit_id] entry of the published mapping. *)
Definition audit_entry (a : pyobj) : outcome span_val :=
  match py_bool a with
  | Return true =>
      match py_str a with
      | Return s => Return (SStr s)
      | Raise e => Raise e
      end
  | Return false => Return SNone
  | Raise e => Raise e
  end.

(** The mapping built on exit from the attributes of the tracker. *)
Definition memory_metrics (t : MemoryTracker) : outcome (gmap string span_val) :=
  match py_sub (mem_peak t) (mem_baseline t) with
  | Return mem_delta =>
      match audit_entry (audit_id t) with
      | Return a =>
          Return {[ "memory_baseline_mb" := span_of (mem_baseline t);
                    "memory_peak_mb" := span_of (mem_peak t);
                    "memory_delta_mb" := SFloat mem_delta;
                    "audit_id" := a ]}
      | Raise e => Raise e
      end
  | Raise e => Raise e
  end.

(** State after [__enter__] on the tracker at [self]. *)
Definition enter_world (self : ref) (w : World St) : World St :=
  if trace_memory_usage (conf w) then
    let w1 := with_samples (S (samples w)) w in
    match sample_mb w with
    | Return mb =>
        with_heap (alter (assign_mem_baseline (Some mb)) self (heap w)) w1
    | Raise e =>
        with_heap (alter (assign_mem_baseline None) self (heap w))
          (with_warnings
             (warnings w ++ ["Failed to capture baseline memory: " +:+ exn_msg e]) w1)
    end
  else w.

(** State after [__exit__] on the tracker at [self], whose attributes on
    entry to [__exit__] are [t]. *)
Definition exit_world (self : ref) (t : MemoryTracker) (w : World St) : World St :=
  if trace_memory_usage (conf w) && is_not_None (mem_baseline t) then
    let w1 := with_samples (S (samples w)) w in
    match sample_mb w with
    | Return mb =>
        let w2 := with_heap (alter (assign_mem_peak (Some mb)) self (heap w)) w1 in
        match memory_metrics (assign_mem_peak (Some mb) t) with
        | Return d => with_tracer_calls (tracer_calls w ++ [TraceStop (Some d)]) w2
        | Raise e =>
            with_warnings
              (warnings w ++ ["Failed to capture peak memory: " +:+ exn_msg e]) w2
        end
    | Raise e =>
        with_warnings
          (warnings w ++ ["Failed to capture peak memory: " +:+ exn_msg e]) w1
    end
  else w.

(** The correlation id the wrapper hands to the tracker. *)
Definition extracted_audit_id (info : @info_arg St Args) (args : Args) (s : St)
  : pyobj :=
  match info with
  | InfoCallable f =>
      match f args s with
      | Return metadata =>
          match meta_get metadata "audit_id" with
          | Return a => a
          | Raise _ => PyNone
          end
      | Raise _ => PyNone
      end
  | _ => PyNone
  end.

(** State after one call of the wrapper. *)
Definition wrapper_world (name : string) (info : @info_arg St Args)
    (func : Args -> St -> outcome Val * St) (args : Args) (w : World St)
  : World St :=
  let self := length (heap w) in
  let t0 := mkTracker name (extracted_audit_id info args (app w)) None None in
  let w1 := enter_world self (with_heap (heap w ++ [t0]) w) in
  let w2 := with_app (func args (app w)).2
              (with_tracer_calls
                 (tracer_calls w1 ++ [TraceStart name; TraceStop None]) w1) in
  exit_world self (default t0 (heap w1 !! self)) w2.

(** Attributes of the tracker of an invocation started in [w], once the
    invocation is over. *)
Definition final_tracker (name : string) (aid : pyobj) (w : World St)
  : MemoryTracker :=
  if trace_memory_usage (conf w) then
    match sample_mb w with
    | Return b =>
        match sample_mb_on_exit w with
        | Return p => mkTracker name aid (Some b) (Some p)
        | Raise _ => mkTracker name aid (Some b) None
        end
    | Raise _ => mkTracker name aid None None
    end
  else mkTracker name aid None None.

(** Calls the tracker of an invocation started in [w] makes to
    [profiler.stop]. *)
Definition published (name : string) (aid : pyobj) (w : World St)
  : list tracer_call :=
  if trace_memory_usage (conf w) then
    match sample_mb w, sample_mb_on_exit w with
    | Return b, Return p =>
        match memory_metrics (mkTracker name aid (Some b) (Some p)) with
        | Return d => [TraceStop (Some d)]
        | Raise _ => []
        end
    | _, _ => []
    end
  else [].

(** Number of [memory_info()] calls of an invocation started in [w]. *)
Definition sampling_calls (w : World St) : nat :=
  if trace_memory_usage (conf w) then
    match sample_mb w with
    | Return _ => 2
    | Raise _ => 1
    end
  else 0.

End Runs.

(** ** Concrete scenarios *)

Module Scenario.

Definition MiB : Z := 1024 * 1024.

(** Sampling returns 100 MB, then 140 MB. *)
Definition feed_100_140 (n : nat) : outcome Z :=
  match n with
  | 0 => Return (100 * MiB)%Z
  | _ => Return (140 * MiB)%Z
  end.


(** Sampling always fails. *)
Definition feed_fails (n : nat) : outcome Z :=
  Raise (Exn "AccessDenied" "psutil.AccessDenied").

(** A process in which nothing has happened yet; the state of the
    business logic is a counter. *)
Definition fresh (c : Conf) (feed : nat -> outcome Z) (active : bool) : World Z :=
  mkWorld c 0%Z feed 0 active [] [] [].

(** The plain function: returns [x + 1] and counts the call. *)
Definition plain (x : Z) (s : Z) : outcome pyobj * Z :=
  (Return (PyInt (x + 1)), (s + 1)%Z).

(** A function that raises. *)
Definition faulty (x : Z) (s : Z) : outcome pyobj * Z :=
  (Raise (Exn "ValueError" "bad audit"), (s + 1)%Z).

(** [info=lambda x: {"audit_id": x}] *)
Definition info_id : @info_arg Z Z :=
  InfoCallable (fun x _ => Return (MetaDict {[ "audit_id" := PyInt x ]})).

(** [info=lambda x: {"audit_id": v}] *)
Definition info_const (v : pyobj) : @info_arg Z Z :=
  InfoCallable (fun _ _ => Return (MetaDict {[ "audit_id" := v ]})).



(** Configurations: the defaults with [enabled] on, and each of the two
    options of the repository switched off. *)
Definition conf_on : Conf := default_conf true.
Definition conf_no_audit : Conf := mkConf true false true.

(** The instrumented function named ["op-a"], called with [x=1] in a
    fresh process. *)
Definition op_a (c : Conf) (feed : nat -> outcome Z) (active : bool)
    (info : @info_arg Z Z) : outcome pyobj * World Z :=
  trace_with_memory PyNone "op-a" info plain 1%Z (fresh c feed active).

(** The mapping published for readings of 100 MB and 140 MB. *)
Definition metrics_100_140 (a : span_val) : gmap string span_val :=
  {[ "memory_baseline_mb" := SFloat 100%float;
     "memory_peak_mb" := SFloat 140%float;
     "memory_delta_mb" := SFloat 40%float;
     "audit_id" := a ]}.

(** The calls the tracer receives in a run that publishes
    [metrics_100_140 a]. *)
Definition calls_100_140 (a : span_val) : list tracer_call :=
  [TraceStart "op-a"; TraceStop None; TraceStop (Some (metrics_100_140 a))].

(** The calls the tracer receives when the [info] callable gives [v] as
    the correlation id and the readings are 100 MB and 140 MB. *)
Definition calls_for (v : pyobj) : list tracer_call :=
  tracer_calls (op_a conf_on feed_100_140 true (info_const v)).2.

(** A decision engine in which every collaborator works, except
    [init_from_conf]. *)
Definition env_init_fails : DecisionEngine.Env :=
  DecisionEngine.mkEnv None None None
    (Some (Exn "ConnectionError" "collector unreachable")) None None None None.

End Scenario.


(** ** [DecisionEngineService.stop], [wait] and [reset] *)

Module Lifecycle.

Import DecisionEngine.

(** What these methods ask of the code the service is built on. *)
Inductive call : Type :=
| BaseStop           (* watcher_service.Service.stop *)
| SchedulerStop
| BaseWait           (* watcher_service.Service.wait *)
| SchedulerWait
| BaseReset          (* watcher_service.Service.reset *)
| SchedulerReset.

(** How each of these operations ends: [None] for a normal return. *)
Record Env := mkEnv {
  base_stop : option exn;
  scheduler_stop : option exn;
  base_wait : option exn;
  scheduler_wait : option exn;
  base_reset : option exn;
  scheduler_reset : option exn
}.

(** The service, with the outcomes of these operations and the calls made
    so far, oldest first. *)
Record Process := mkProcess {
  service : Service;
  lenv : Env;
  calls : list call
}.

(** A statement on the service, run in the process. *)
Definition on_service {A} (c : M Service A) : M Process A :=
  fun p => let (r, s) := c (service p) in (r, mkProcess s (lenv p) (calls p)).

(** An operation of the environment: it is recorded, then it returns or
    raises as the environment says, and [effect] is applied to the service
    when it returns. *)
Definition external (c : call) (result : Env -> option exn)
    (effect : Service -> Service) : M Process unit :=
  fun p =>
    let cs := calls p ++ [c] in
    match result (lenv p) with
    | None => (Return tt, mkProcess (effect (service p)) (lenv p) cs)
    | Some e => (Raise e, mkProcess (service p) (lenv p) cs)
    end.

(** [DecisionEngineService.start], in the process *)
Definition start : M Process unit := on_service DecisionEngine.start.

(** [DecisionEngineService.stop] *)
Definition stop : M Process unit :=
  run external BaseStop base_stop (with_base_running false) in
  run on_service bg_scheduler in
  external SchedulerStop scheduler_stop (with_bg_scheduler (Some (mkSub false))).

(** [DecisionEngineService.wait] *)
Definition wait : M Process unit :=
  run external BaseWait base_wait id in
  run on_service bg_scheduler in
  external SchedulerWait scheduler_wait id.

(** [DecisionEngineService.reset] *)
Definition reset : M Process unit :=
  run external BaseReset base_reset id in
  run on_service bg_scheduler in
  external SchedulerReset scheduler_reset id.

End Lifecycle.

(** ** Invocations in general *)

Section General.

Context {St Args Val : Type}.

(** The decorator of [trace_with_memory name info] applied to a callable
    that acts on the whole process, an instrumented callable for one;
    [trace_with_memory] is the case of a callable of the business logic. *)
Definition decorate (VNone : Val) (name : string) (info : @info_arg St Args)
    (func : Args -> M (World St) Val) : Args -> M (World St) Val :=
  let traced_func := profiler_trace name info func in
  wrapper VNone name info traced_func.

(** A statement keeps the objects of the heap when it leaves each of them
    as it is: the tracker of an invocation is local to the wrapper, out of
    reach of the callable that is wrapped. *)
Definition keeps_objects {A} (c : M (World St) A) : Prop :=
  forall w i t, heap w !! i = Some t -> heap (c w).2 !! i = Some t.

(** Outcome of the sampling expression at the [k]-th call to psutil from
    state [w] on. *)
Definition sample_mb_at (k : nat) (w : World St) : outcome float :=
  sample_mb (with_samples (samples w + k) w).

(** What an invocation started in [w] logs. *)
Definition logged (name : string) (aid : pyobj) (w : World St) : list string :=
  if trace_memory_usage (conf w) then
    match sample_mb w with
    | Return b =>
        match sample_mb_on_exit w with
        | Return p =>
            match memory_metrics (mkTracker name aid (Some b) (Some p)) with
            | Return _ => []
            | Raise e => ["Failed to capture peak memory: " +:+ exn_msg e]
            end
        | Raise e => ["Failed to capture peak memory: " +:+ exn_msg e]
        end
    | Raise e => ["Failed to capture baseline memory: " +:+ exn_msg e]
    end
  else [].

(** Number of calls of each kind among the calls [cs] to the tracer. *)
Definition is_start (c : tracer_call) : bool :=
  match c with
  | TraceStart _ => true
  | TraceStop _ => false
  end.
Definition starts (cs : list tracer_call) : nat :=
  length (List.filter is_start cs).
Definition stops (cs : list tracer_call) : nat :=
  length (List.filter (fun c => negb (is_start c)) cs).

End General.

(** ** More concrete scenarios *)

Module Cases.

Import DecisionEngine.

(** Sampling returns 100 MB, 110 MB, 120 MB, ... *)
Definition feed_rising (n : nat) : outcome Z :=
  Return ((100 + 10 * Z.of_nat n) * Scenario.MiB)%Z.


(** The function of [Scenario.plain], instrumented as ["inner"] and then
    as ["outer"], called with [x=1] in a fresh process. *)
Definition nested : outcome pyobj * World Z :=
  decorate PyNone "outer" InfoNone
    (trace_with_memory PyNone "inner" Scenario.info_id Scenario.plain) 1%Z
    (Scenario.fresh Scenario.conf_on feed_rising true).

(** Environments of the decision engine: every operation works; the base
    service, the scheduler or the continuous handler fails to start. *)
Definition env_ok : Env := mkEnv None None None None None None None None.
Definition env_base_fails : Env :=
  mkEnv (Some (Exn "RuntimeError" "rpc server")) None None None None None None None.
Definition env_scheduler_fails : Env :=
  mkEnv None None None None None (Some (Exn "RuntimeError" "scheduler")) None None.
Definition env_handler_fails : Env :=
  mkEnv None None None None None None None (Some (Exn "RuntimeError" "handler")).

(** A process in which [stop], [wait] and [reset] work, around a service
    that was just built. *)
Definition lenv_ok : Lifecycle.Env :=
  Lifecycle.mkEnv None None None None None None.
Definition built (enabled : bool) (e : Env) : Lifecycle.Process :=
  Lifecycle.mkProcess (__init__ enabled e) lenv_ok [].

End Cases.
(** ** The code computes these functions *)

Section StepLemmas.

Context {St Args Val : Type}.
Variable VNone : Val.
Implicit Types (w : World St) (self : ref) (t : MemoryTracker).

Lemma get_attr_run {A} self t (attr : MemoryTracker -> A) w :
  heap w !! self = Some t -> get_attr self attr w = (Return (attr t), w).
Proof. intros H. unfold get_attr. by rewrite H. Qed.

Lemma alter_last {A} (f : A -> A) (h : list A) (x : A) :
  alter f (length h) (h ++ [x]) = h ++ [f x].
Proof.
  rewrite <- (Nat.add_0_r (length h)). by rewrite alter_app_r.
Qed.

Lemma enter_run self w :
  MemoryTracker__enter__ self w = (Return self, enter_world self w).
Proof.
  unfold MemoryTracker__enter__, enter_world, bind, CONF_profiler, sample_mb.
  destruct (trace_memory_usage (conf w)); [|done].
  unfold try_except, bind, memory_info_rss, eval; simpl.
  destruct (rss_feed w (samples w)) as [rss|e]; simpl; [|done].
  destruct (rss_to_mb rss); done.
Qed.

Lemma exit_run self t exc w :
  heap w !! self = Some t ->
  MemoryTracker__exit__ self exc w = (Return false, exit_world self t w).
Proof.
  intros Hself.
  unfold MemoryTracker__exit__, exit_world, bind, CONF_profiler, sample_mb.
  destruct (trace_memory_usage (conf w)); simpl; [|done].
  rewrite (get_attr_run _ _ _ _ Hself). simpl.
  destruct (mem_baseline t) as [b|] eqn:Hb; simpl; [|done].
  unfold try_except, bind, memory_info_rss, eval; simpl.
  destruct (rss_feed w (samples w)) as [rss|e]; simpl; [|done].
  destruct (rss_to_mb rss) as [mb|e]; simpl; [|done].
  unfold set_mem_peak; simpl.
  assert (Hpeak : forall w1 : World St,
             alter (assign_mem_peak (Some mb)) self (heap w) !! self
             = Some (assign_mem_peak (Some mb) t))
    by (intros _; by rewrite list_lookup_alter_eq, Hself).
  repeat (erewrite get_attr_run by (simpl; apply (Hpeak w))); simpl.
  unfold memory_metrics, audit_entry; simpl. rewrite Hb. simpl.
  destruct (py_bool (audit_id t)) as [[]|e]; simpl; [|done|done].
  destruct (py_str (audit_id t)); done.
Qed.

Lemma extract_run (info : @info_arg St Args) args w :
  (if info_truth info && callable info then
     try_except
       (let* metadata := call_info info args in
        eval (meta_get metadata "audit_id"))
       (fun _ => ret PyNone)
   else ret PyNone) w
  = (Return (extracted_audit_id info args (app w)), w).
Proof.
  destruct info as [|d|f]; simpl; [done| |].
  - by rewrite andb_false_r.
  - unfold try_except, bind, eval. simpl.
    destruct (f args (app w)) as [m|e]; [|done].
    by destruct (meta_get m "audit_id").
Qed.

Lemma enter_world_app self w : app (enter_world self w) = app w.
Proof.
  unfold enter_world.
  destruct (trace_memory_usage (conf w)); [|done].
  by destruct (sample_mb w).
Qed.

Lemma enter_world_lookup self t w :
  heap w !! self = Some t ->
  exists t', heap (enter_world self w) !! self = Some t'.
Proof.
  intros H. unfold enter_world.
  destruct (trace_memory_usage (conf w)); [|eauto].
  destruct (sample_mb w); simpl; rewrite list_lookup_alter_eq, H; eauto.
Qed.

(** One call of the wrapper returns what the wrapped callable returns and
    leaves the state [wrapper_world]. *)
Lemma trace_with_memory_run name (info : @info_arg St Args)
    (func : Args -> St -> outcome Val * St) args w :
  trace_with_memory VNone name info func args w
  = ((func args (app w)).1, wrapper_world name info func args w).
Proof.
  unfold trace_with_memory, wrapper, wrapper_world.
  unfold bind at 1. rewrite extract_run.
  unfold bind at 1. unfold MemoryTracker__init__, new_object.
  set (t0 := mkTracker name _ None None).
  set (w0 := with_heap (heap w ++ [t0]) w).
  assert (H0 : heap w0 !! length (heap w) = Some t0)
    by (by apply list_lookup_middle).
  destruct (enter_world_lookup _ _ _ H0) as [t1 H1].
  pose proof (enter_world_app (length (heap w)) w0) as Happ.
  unfold bind at 1. unfold with_MemoryTracker. unfold bind at 1.
  rewrite enter_run.
  unfold profiler_trace, bind, profiler_start, try_finally, call, profiler_stop.
  simpl. rewrite Happ. simpl.
  destruct (func args (app w)) as [[v|e] s]; simpl;
    (erewrite exit_run by (simpl; exact H1)); simpl; rewrite H1; simpl;
    unfold ret, raise; do 2 f_equal;
    unfold with_tracer_calls, with_app; simpl; by rewrite <- app_assoc.
Qed.

(** What can be observed of the state after one call of the wrapper. *)
Lemma wrapper_world_obs name (info : @info_arg St Args)
    (func : Args -> St -> outcome Val * St) args w :
  let aid := extracted_audit_id info args (app w) in
  let w' := wrapper_world name info func args w in
  app w' = (func args (app w)).2 /\
  conf w' = conf w /\
  samples w' = samples w + sampling_calls w /\
  tracer_calls w' =
    tracer_calls w ++ [TraceStart name; TraceStop None] ++ published name aid w /\
  heap w' = heap w ++ [final_tracker name aid w].
Proof.
  unfold wrapper_world, enter_world, exit_world, final_tracker, published,
    sampling_calls, sample_mb_on_exit; simpl.
  destruct (trace_memory_usage (conf w)) eqn:Hflag; simpl.
  2:{ rewrite Hflag. simpl. repeat split; try done; lia. }
  change (sample_mb (with_heap _ w)) with (sample_mb w).
  destruct (sample_mb w) as [b|e] eqn:Hb; simpl; rewrite Hflag; simpl;
    rewrite alter_last; rewrite list_lookup_middle by done; simpl.
  2:{ repeat split; try done; lia. }
  match goal with |- context [sample_mb ?x] =>
    change (sample_mb x) with (sample_mb (with_samples (S (samples w)) w)) end.
  destruct (sample_mb (with_samples (S (samples w)) w)) as [p|e] eqn:Hp; simpl.
  2:{ repeat split; try done; lia. }
  rewrite alter_last.
  change (assign_mem_peak (Some p) (assign_mem_baseline (Some b) _))
    with (mkTracker name (extracted_audit_id info args (app w)) (Some b) (Some p)).
  destruct (memory_metrics _) as [d|e]; simpl;
    rewrite <- ?app_assoc; repeat split; try done; lia.
Qed.

(** The calls one invocation makes to the tracer. *)
Lemma calls_of_run name (info : @info_arg St Args)
    (func : Args -> St -> outcome Val * St) args w :
  calls_since w (trace_with_memory VNone name info func args w).2
  = [TraceStart name; TraceStop None]
    ++ published name (extracted_audit_id info args (app w)) w.
Proof.
  rewrite trace_with_memory_run. simpl. unfold calls_since.
  destruct (wrapper_world_obs name info func args w) as (_ & _ & _ & -> & _).
  by rewrite drop_app_length.
Qed.


Lemma samples_of_run name (info : @info_arg St Args)
    (func : Args -> St -> outcome Val * St) args w :
  samples (trace_with_memory VNone name info func args w).2
  = samples w + sampling_calls w.
Proof.
  rewrite trace_with_memory_run. simpl.
  by destruct (wrapper_world_obs name info func args w) as (_ & _ & -> & _).
Qed.


End StepLemmas.

Section Publication.

Context {St Args Val : Type}.
Variable VNone : Val.
Implicit Types (w : World St).




End Publication.

Section Claims.

Context {St Args Val : Type}.
Variable VNone : Val.
Implicit Types (w : World St) (name : string) (info : @info_arg St Args)
  (func : Args -> St -> outcome Val * St) (args : Args).

(** C1. Calling the wrapper built by [trace_with_memory name info] returns
    what the wrapped callable returns, or raises what it raises, and leaves
    the state of the business logic as the callable leaves it; this holds
    in every configuration. *)
Theorem trace_with_memory_transparent name info func args w :
  (trace_with_memory VNone name info func args w).1 = (func args (app w)).1 /\
  app (trace_with_memory VNone name info func args w).2 = (func args (app w)).2.
Proof.
  rewrite trace_with_memory_run. simpl. split; [done|].
  by destruct (wrapper_world_obs name info func args w) as (-> & _).
Qed.


(** The calls to psutil and to the tracer, and the result, are the same
    whatever [enabled] and [trace_audit_execution] are. *)
Lemma ungated_options name info func args w (e a : bool) :
  let c := mkConf e a (trace_memory_usage (conf w)) in
  let r := trace_with_memory VNone name info func args w in
  let r' := trace_with_memory VNone name info func args (with_conf c w) in
  r'.1 = r.1 /\
  calls_since (with_conf c w) r'.2 = calls_since w r.2 /\
  samples r'.2 = samples r.2.
Proof.
  simpl. rewrite !calls_of_run, !samples_of_run, !trace_with_memory_run.
  done.
Qed.








End Claims.

Section ServiceClaims.

Import DecisionEngine.

(** C5. When [CONF.profiler.enabled] is set and the initialisation of the
    profiler fails, [start] does not raise: the failure is logged as a
    warning, the profiler stays uninitialised, nothing is logged as a
    success, and the scheduler and the continuous handler are started
    (the base service and the two subservices starting as they should). *)
Theorem start_survives_profiler_init_failure (s : Service) (e : exn) :
  profiler_enabled s = true ->
  init_from_conf (env s) = Some e ->
  base_start (env s) = None ->
  new_scheduler (env s) = None -> scheduler_start (env s) = None ->
  new_handler (env s) = None -> handler_start (env s) = None ->
  (start s).1 = Return tt /\
  _bg_scheduler (start s).2 = Some (mkSub true) /\
  _continuous_handler (start s).2 = Some (mkSub true) /\
  profiler_initialized (start s).2 = profiler_initialized s /\
  (exists e' before after,
      journal (start s).2
      = journal s ++ before
        ++ [LogWarning ("Failed to initialize osprofiler: " +:+ exn_msg e'
                        +:+ ". Profiling will be disabled.")]
        ++ after /\
      (SchedulerStart ∈ after) /\ (HandlerStart ∈ after) /\
      (InitFromConf ∉ after) /\
      Forall (fun ev => forall msg, ev <> LogInfo msg) (before ++ after)).
Proof.
  intros Hen Hinit Hbase Hns Hss Hnh Hhs.
  unfold start, bind, try_except, bg_scheduler, continuous_handler,
    external, log, ret.
  simpl. rewrite Hbase. simpl. rewrite Hen. simpl.
  destruct (admin_context (env s)) as [e1|]; simpl;
    [|destruct (gethostname (env s)) as [e2|]; simpl;
      [|rewrite Hinit; simpl]];
    (destruct (_bg_scheduler s); simpl;
     rewrite ?Hns; simpl; rewrite ?Hss; simpl;
     destruct (_continuous_handler s); simpl;
     rewrite ?Hnh; simpl; rewrite ?Hhs; simpl;
     do 4 (split; [done|]);
     rewrite <- !app_assoc; simpl).
  all: match goal with
       | |- context [exn_msg ?e' +:+ _] => exists e'
       end.
  all: match goal with
       | |- context [_ ++ BaseStart :: AdminContext :: GetHostname
                               :: InitFromConf :: _] =>
           exists [BaseStart; AdminContext; GetHostname; InitFromConf]
       | |- context [_ ++ BaseStart :: AdminContext :: GetHostname :: _] =>
           exists [BaseStart; AdminContext; GetHostname]
       | |- context [_ ++ BaseStart :: AdminContext :: _] =>
           exists [BaseStart; AdminContext]
       end.
  all: eexists; (split; [simpl; reflexivity|]).
  all: rewrite !list_elem_of_In; simpl.
  all: split; [tauto|]; split; [tauto|]; split; [intuition discriminate|].
  all: repeat constructor; done.
Qed.

End ServiceClaims.

(** ** The profiling gate and the options *)

(** [is_profiling_enabled] is the conjunction of the [enabled] option and of
    the presence of a profiler; it leaves the state as it is. *)
Lemma is_profiling_enabled_run {St : Type} (w : World St) :
  is_profiling_enabled w = (Return (enabled (conf w) && current_profiler w), w).
Proof.
  unfold is_profiling_enabled, bind, CONF_profiler, profiler_get, ret.
  by destruct (enabled (conf w)).
Qed.

(** The defaults of the two options of the repository are those of
    [profiler_opts_list]. *)
Lemma default_conf_opts (e : bool) :
  [("trace_audit_execution", trace_audit_execution (default_conf e));
   ("trace_memory_usage", trace_memory_usage (default_conf e))]
  = profiler_opts_list.
Proof. reflexivity. Qed.

(** ** The claims on concrete runs *)

Import Scenario DecisionEngine.

(** Conjunctions of closed equations, each settled by running the model. *)
Ltac by_run :=
  cbv zeta;
  repeat match goal with |- _ /\ _ => split end;
  vm_compute; reflexivity.

(** [profiler.enabled=true], sampling returns 100 MB then 140 MB: the
    published [memory_delta_mb] is [40.0]. *)
Example delta_of_100_140 :
  op_a conf_on feed_100_140 true info_id
  = (Return (PyInt 2),
     mkWorld conf_on 1%Z feed_100_140 2 true
       (calls_100_140 (SStr "1")) []
       [mkTracker "op-a" (PyInt 1) (Some 100%float) (Some 140%float)]).
Proof. by_run. Qed.

(** An exception of the wrapped callable comes out of the wrapper as it
    is, after the tracker has published. *)
Example faulty_callable_raises :
  let r := trace_with_memory PyNone "op-a" info_id faulty 1%Z
             (fresh conf_on feed_100_140 true) in
  r.1 = Raise (Exn "ValueError" "bad audit") /\
  app r.2 = 1%Z /\
  tracer_calls r.2 = calls_100_140 (SStr "1").
Proof. by_run. Qed.


(** With [trace_audit_execution] off the tracer receives the same calls
    as with the defaults. *)
Example calls_with_trace_audit_execution_off :
  tracer_calls (op_a conf_no_audit feed_100_140 true info_id).2
  = calls_100_140 (SStr "1").
Proof. by_run. Qed.




(** Sampling fails on entry: psutil is called once, the failure is logged,
    there is no second sampling and nothing is published. *)
Example baseline_failure_publishes_nothing :
  let r := op_a conf_on feed_fails true info_id in
  r.1 = Return (PyInt 2) /\
  samples r.2 = 1 /\
  heap r.2 = [mkTracker "op-a" (PyInt 1) None None] /\
  tracer_calls r.2 = [TraceStart "op-a"; TraceStop None] /\
  warnings r.2 = ["Failed to capture baseline memory: psutil.AccessDenied"].
Proof. by_run. Qed.

Lemma start_survives_profiler_init_failure_witness :
  let s := __init__ true env_init_fails in
  (start s).1 = Return tt /\
  _bg_scheduler (start s).2 = Some (mkSub true) /\
  _continuous_handler (start s).2 = Some (mkSub true) /\
  profiler_initialized (start s).2 = false.
Proof.
  destruct (start_survives_profiler_init_failure
              (__init__ true env_init_fails)
              (Exn "ConnectionError" "collector unreachable")
              eq_refl eq_refl eq_refl eq_refl eq_refl eq_refl eq_refl)
    as (H1 & H2 & H3 & H4 & _).
  repeat split; assumption.
Defined.

Example journal_of_start :
  journal (start (__init__ true env_init_fails)).2
  = [BaseStart; AdminContext; GetHostname; InitFromConf;
     LogWarning "Failed to initialize osprofiler: collector unreachable. Profiling will be disabled.";
     NewScheduler; SchedulerStart; NewHandler; HandlerStart].
Proof. by_run. Qed.




(** C9 on the values the claim names: the empty string, [0] and [False]
    are published as null, a truthy id as its [str()]. *)
Example published_audit_ids :
  calls_for (PyStr "") = calls_100_140 SNone /\
  calls_for (PyInt 0) = calls_100_140 SNone /\
  calls_for (PyBool false) = calls_100_140 SNone /\
  calls_for PyNone = calls_100_140 SNone /\
  calls_for (PyInt 42) = calls_100_140 (SStr "42") /\
  calls_for (PyInt (-7)) = calls_100_140 (SStr "-7") /\
  calls_for (PyBool true) = calls_100_140 (SStr "True") /\
  calls_for (PyStr "a-1") = calls_100_140 (SStr "a-1").
Proof. by_run. Qed.

(** An id whose [str()] raises: the second reading is kept by the
    tracker, nothing is published and the failure is logged. *)
Example unprintable_audit_id :
  let r := op_a conf_on feed_100_140 true
             (info_const (PyObject (Return true) (Raise (Exn "TypeError" "no str")))) in
  r.1 = Return (PyInt 2) /\
  mem_peak <$> heap r.2 !! 0 = Some (Some 140%float) /\
  tracer_calls r.2 = [TraceStart "op-a"; TraceStop None] /\
  warnings r.2 = ["Failed to capture peak memory: no str"].
Proof. by_run. Qed.


(** ** Further properties of an invocation *)

Section Invocation.

Context {St Args Val : Type}.
Variable VNone : Val.
Implicit Types (w : World St) (name : string) (info : @info_arg St Args)
  (func : Args -> St -> outcome Val * St) (args : Args).

(** What an invocation logs, and what it leaves alone. *)
Lemma wrapper_world_log name info func args w :
  let w' := wrapper_world name info func args w in
  warnings w' = warnings w
                ++ logged name (extracted_audit_id info args (app w)) w /\
  rss_feed w' = rss_feed w /\
  current_profiler w' = current_profiler w.
Proof.
  unfold wrapper_world, enter_world, exit_world, logged, sample_mb_on_exit; simpl.
  destruct (trace_memory_usage (conf w)) eqn:Hflag; simpl.
  2:{ rewrite Hflag. simpl. by rewrite app_nil_r. }
  change (sample_mb (with_heap _ w)) with (sample_mb w).
  destruct (sample_mb w) as [b|e] eqn:Hb; simpl; rewrite Hflag; simpl;
    rewrite alter_last; rewrite list_lookup_middle by done; simpl.
  2:{ done. }
  match goal with |- context [sample_mb ?x] =>
    change (sample_mb x) with (sample_mb (with_samples (S (samples w)) w)) end.
  destruct (sample_mb (with_samples (S (samples w)) w)) as [p|e] eqn:Hp; simpl.
  2:{ done. }
  change (assign_mem_peak (Some p) (assign_mem_baseline (Some b) _))
    with (mkTracker name (extracted_audit_id info args (app w)) (Some b) (Some p)).
  destruct (memory_metrics _) as [d|e]; simpl; [|done].
  by rewrite app_nil_r.
Qed.

(** X1. An invocation adds exactly one tracker to the heap, named after the
    trace point, and leaves every tracker that was there, the configuration,
    the psutil feed and the profiler as they are. *)
Theorem invocation_allocates_one_tracker name info func args w :
  exists t,
    heap (trace_with_memory VNone name info func args w).2 = heap w ++ [t] /\
    trace_name t = name /\
    (forall i t0,
        heap w !! i = Some t0 ->
        heap (trace_with_memory VNone name info func args w).2 !! i = Some t0) /\
    conf (trace_with_memory VNone name info func args w).2 = conf w /\
    rss_feed (trace_with_memory VNone name info func args w).2 = rss_feed w /\
    current_profiler (trace_with_memory VNone name info func args w).2
    = current_profiler w.
Proof.
  rewrite trace_with_memory_run. simpl.
  destruct (wrapper_world_obs name info func args w) as (_ & Hc & _ & _ & Hh).
  destruct (wrapper_world_log name info func args w) as (_ & Hf & Hp).
  eexists. split; [exact Hh|]. split.
  - unfold final_tracker.
    destruct (trace_memory_usage (conf w)); [|done].
    destruct (sample_mb w); [|done]. by destruct (sample_mb_on_exit w).
  - split; [|done]. intros i t0 Hi. rewrite Hh.
    rewrite lookup_app_l; [done|]. by eapply lookup_lt_Some.
Qed.

(** X2. An invocation calls [memory_info()] at most twice: not at all with
    [trace_memory_usage] off, once when the first sampling fails (no second
    one is attempted), twice when it succeeds. *)
Theorem sampling_at_most_twice name info func args w :
  samples w <= samples (trace_with_memory VNone name info func args w).2
  <= samples w + 2 /\
  (trace_memory_usage (conf w) = false ->
   samples (trace_with_memory VNone name info func args w).2 = samples w) /\
  (forall e,
      trace_memory_usage (conf w) = true -> sample_mb w = Raise e ->
      samples (trace_with_memory VNone name info func args w).2 = samples w + 1) /\
  (forall b,
      trace_memory_usage (conf w) = true -> sample_mb w = Return b ->
      samples (trace_with_memory VNone name info func args w).2 = samples w + 2).
Proof.
  rewrite samples_of_run. unfold sampling_calls.
  destruct (trace_memory_usage (conf w)); [|repeat split; (done || lia)].
  destruct (sample_mb w); repeat split; try (done || lia).
Qed.





End Invocation.

(** ** Callables that act on the whole process, and nesting *)

Section Nesting.

Context {St Args Val : Type}.
Variable VNone : Val.
Implicit Types (w : World St) (name : string) (info : @info_arg St Args)
  (args : Args).

(** [trace_with_memory] is [decorate] on a callable of the business logic. *)
Lemma trace_with_memory_decorate name info
    (func : Args -> St -> outcome Val * St) :
  trace_with_memory VNone name info func = decorate VNone name info (call func).
Proof. reflexivity. Qed.

(** One call of a decorated callable: the callable runs once, between the
    two halves of the tracker, in the state [w_in]. *)
Lemma decorate_run name info (func : Args -> M (World St) Val) args w :
  keeps_objects (func args) ->
  let self := length (heap w) in
  let t0 := mkTracker name (extracted_audit_id info args (app w)) None None in
  let w1 := enter_world self (with_heap (heap w ++ [t0]) w) in
  let w_in := with_tracer_calls (tracer_calls w1 ++ [TraceStart name]) w1 in
  let w2 := (func args w_in).2 in
  let w3 := with_tracer_calls (tracer_calls w2 ++ [TraceStop None]) w2 in
  decorate VNone name info func args w
  = ((func args w_in).1, exit_world self (default t0 (heap w1 !! self)) w3).
Proof.
  intros Hkeep. simpl.
  unfold decorate, wrapper.
  unfold bind at 1. rewrite extract_run.
  unfold bind at 1. unfold MemoryTracker__init__, new_object.
  set (t0 := mkTracker name _ None None).
  set (w0 := with_heap (heap w ++ [t0]) w).
  assert (H0 : heap w0 !! length (heap w) = Some t0)
    by (by apply list_lookup_middle).
  destruct (enter_world_lookup _ _ _ H0) as [t1 H1].
  unfold bind at 1. unfold with_MemoryTracker. unfold bind at 1.
  rewrite enter_run.
  unfold profiler_trace, bind, profiler_start, try_finally, profiler_stop.
  simpl. rewrite H1. simpl.
  set (w_in := with_tracer_calls _ (enter_world (length (heap w)) w0)).
  pose proof (Hkeep w_in (length (heap w)) t1 H1) as H2.
  destruct (func args w_in) as [[v|e] w2]; simpl in *;
    (erewrite exit_run by (simpl; exact H2)); done.
Qed.


(** An instrumented callable leaves the trackers of the invocations in
    progress alone. *)
Lemma trace_with_memory_keeps_objects name info
    (func : Args -> St -> outcome Val * St) args :
  keeps_objects (trace_with_memory VNone name info func args).
Proof.
  intros w i t Hi. rewrite trace_with_memory_run. simpl.
  destruct (wrapper_world_obs name info func args w) as (_ & _ & _ & _ & ->).
  rewrite lookup_app_l; [done|]. by eapply lookup_lt_Some.
Qed.

Lemma sample_mb_ext w1 w2 :
  rss_feed w1 = rss_feed w2 -> samples w1 = samples w2 ->
  sample_mb w1 = sample_mb w2.
Proof. unfold sample_mb. by intros -> ->. Qed.

Lemma exit_world_app self t w : app (exit_world self t w) = app w.
Proof.
  unfold exit_world.
  destruct (trace_memory_usage (conf w) && is_not_None (mem_baseline t)); [|done].
  destruct (sample_mb w); [|done]. by destruct (memory_metrics _).
Qed.

Lemma enter_world_sampled self w b :
  trace_memory_usage (conf w) = true -> sample_mb w = Return b ->
  heap (enter_world self w) = alter (assign_mem_baseline (Some b)) self (heap w) /\
  samples (enter_world self w) = S (samples w) /\
  conf (enter_world self w) = conf w /\
  rss_feed (enter_world self w) = rss_feed w.
Proof. intros Hf Hb. unfold enter_world. by rewrite Hf, Hb. Qed.

Lemma exit_world_sampled self t w b p :
  trace_memory_usage (conf w) = true -> mem_baseline t = Some b ->
  sample_mb w = Return p ->
  heap (exit_world self t w) = alter (assign_mem_peak (Some p)) self (heap w) /\
  samples (exit_world self t w) = S (samples w).
Proof.
  intros Hf Hb Hp. unfold exit_world. rewrite Hf, Hb, Hp. simpl.
  by destruct (memory_metrics _).
Qed.

(** X8. Instrumentation nests.  A callable instrumented twice returns what
    the plain callable returns and leaves the business state it leaves; and
    when the four readings succeed, the outer tracker holds the first and
    the last of them and the inner tracker the two in between, so that the
    outer measurement brackets the inner one. *)
Theorem nested_invocations name_o info_o name_i info_i
    (func : Args -> St -> outcome Val * St) args w :
  let inner := trace_with_memory VNone name_i info_i func in
  let r := decorate VNone name_o info_o inner args w in
  r.1 = (func args (app w)).1 /\
  app r.2 = (func args (app w)).2 /\
  (forall b1 b2 p2 p1,
      trace_memory_usage (conf w) = true ->
      sample_mb_at 0 w = Return b1 -> sample_mb_at 1 w = Return b2 ->
      sample_mb_at 2 w = Return p2 -> sample_mb_at 3 w = Return p1 ->
      heap r.2
      = heap w
        ++ [mkTracker name_o (extracted_audit_id info_o args (app w))
                      (Some b1) (Some p1);
            mkTracker name_i (extracted_audit_id info_i args (app w))
                      (Some b2) (Some p2)] /\
      samples r.2 = samples w + 4).
Proof.
  simpl.
  rewrite (decorate_run _ _ _ _ _ (trace_with_memory_keeps_objects _ _ _ _)).
  simpl.
  set (t0 := mkTracker name_o _ None None).
  set (w0 := with_heap (heap w ++ [t0]) w).
  set (w1 := enter_world (length (heap w)) w0).
  set (w_in := with_tracer_calls (tracer_calls w1 ++ [TraceStart name_o]) w1).
  assert (Happ : app w1 = app w) by (unfold w1; by rewrite enter_world_app).
  rewrite !trace_with_memory_run. simpl.
  destruct (wrapper_world_obs name_i info_i func args w_in)
    as (Ha2 & Hc2 & Hs2 & _ & Hh2).
  destruct (wrapper_world_log name_i info_i func args w_in) as (_ & Hf2 & _).
  set (w2 := wrapper_world name_i info_i func args w_in) in *.
  simpl in Ha2. rewrite Happ in *.
  split; [done|]. split; [by rewrite exit_world_app|].
  intros b1 b2 p2 p1 Hflag Hb1 Hb2 Hp2 Hp1.
  unfold sample_mb_at in *.
  assert (Hs0 : sample_mb w0 = Return b1).
  { rewrite <- Hb1. apply sample_mb_ext; simpl; [done | lia]. }
  destruct (enter_world_sampled (length (heap w)) w0 b1 Hflag Hs0)
    as (Hh1 & Hn1 & Hc1 & Hf1).
  fold w1 in Hh1, Hn1, Hc1, Hf1. simpl in Hh1, Hn1, Hc1, Hf1.
  rewrite alter_last in Hh1.
  assert (Hin1 : sample_mb w_in = Return b2).
  { rewrite <- Hb2. apply sample_mb_ext; simpl; [done | lia]. }
  assert (Hin2 : sample_mb_on_exit w_in = Return p2).
  { rewrite <- Hp2. apply sample_mb_ext; simpl; [done | lia]. }
  assert (Hfin : trace_memory_usage (conf w_in) = true) by (simpl; by rewrite Hc1).
  unfold sampling_calls in Hs2. unfold final_tracker in Hh2.
  rewrite Hfin, Hin1 in Hs2. rewrite Hfin, Hin1, Hin2 in Hh2.
  simpl in Hs2, Hh2, Hc2, Hf2.
  set (w3 := with_tracer_calls (tracer_calls w2 ++ [TraceStop None]) w2).
  rewrite Hh1. rewrite list_lookup_middle by done. simpl.
  assert (Hf3 : trace_memory_usage (conf w3) = true)
    by (simpl; by rewrite Hc2, Hc1).
  assert (Hs3 : sample_mb w3 = Return p1).
  { rewrite <- Hp1. apply sample_mb_ext; simpl; [by rewrite Hf2, Hf1 | lia]. }
  destruct (exit_world_sampled (length (heap w))
              (assign_mem_baseline (Some b1) t0) w3 b1 p1 Hf3 eq_refl Hs3)
    as (Hh3 & Hn3).
  rewrite Hh3, Hn3. simpl. rewrite Hh2. simpl. rewrite Hh1.
  split; [|lia].
  rewrite alter_app_l by (rewrite length_app; simpl; lia).
  rewrite alter_last, <- app_assoc. by rewrite Happ.
Qed.

End Nesting.

(** ** Further properties of the start of the decision engine *)

Section ServiceStart.

Import DecisionEngine.

(** Unfolds a run of [start] on [s] and splits it along the outcomes of the
    operations of the environment and the fields of [s]. *)
Ltac start_split s :=
  match goal with
  | |- context [match ?f (env s) with _ => _ end] =>
      destruct (f (env s)) eqn:?
  | |- context [if profiler_enabled s then _ else _] =>
      destruct (profiler_enabled s) eqn:?
  | |- context [match _bg_scheduler s with _ => _ end] =>
      destruct (_bg_scheduler s) eqn:?
  | |- context [match _continuous_handler s with _ => _ end] =>
      destruct (_continuous_handler s) eqn:?
  end.
Ltac start_cases s :=
  unfold start, bind, try_except, bg_scheduler, continuous_handler,
    external, log, ret; simpl;
  repeat (start_split s; simpl; try (intros; discriminate); try congruence).

(** Splits the list [l] before the first [x]. *)
Ltac split_before x l k :=
  lazymatch l with
  | x :: ?r => k (@nil event) r
  | ?y :: ?r => split_before x r ltac:(fun a b => k (y :: a) b)
  end.

(** X9. When [start] returns, the scheduler was started before the
    continuous handler: the base service is started first, the handler
    last, and each of the two subservices is started once. *)
Theorem scheduler_started_before_handler (s : Service) :
  (start s).1 = Return tt ->
  exists pre mid,
    journal (start s).2
    = journal s ++ BaseStart :: pre ++ SchedulerStart :: mid ++ [HandlerStart] /\
    Forall (fun ev => ev <> BaseStart /\ ev <> SchedulerStart /\ ev <> HandlerStart)
           (pre ++ mid).
Proof.
  start_cases s; intros _; rewrite <- ?app_assoc; simpl.
  all: match goal with
       | |- exists pre mid, _ ++ BaseStart :: ?l = _ /\ _ =>
           split_before SchedulerStart l ltac:(fun pre r =>
             split_before HandlerStart r ltac:(fun mid _ => exists pre, mid))
       end.
  all: split; [reflexivity|]; simpl; repeat constructor; done.
Qed.

(** X10. With [CONF.profiler.enabled] off, [start] does not try to
    initialise the profiler: neither the admin context, nor the host name,
    nor [init_from_conf] is asked for, nothing is logged, and the profiler
    stays as it was, however the rest of the start ends. *)
Theorem no_profiler_init_when_disabled (s : Service) :
  profiler_enabled s = false ->
  profiler_initialized (start s).2 = profiler_initialized s /\
  Forall (fun ev =>
            ev <> AdminContext /\ ev <> GetHostname /\ ev <> InitFromConf /\
            forall msg, ev <> LogInfo msg /\ ev <> LogWarning msg)
         (drop (length (journal s)) (journal (start s).2)).
Proof.
  intros Hoff. start_cases s.
  all: split; [done|].
  all: rewrite <- ?app_assoc, drop_app_length; simpl.
  all: repeat constructor; done.
Qed.

(** X11. With [CONF.profiler.enabled] on, when the base service starts and
    the profiler is initialised without error, the profiler is marked
    initialised and the success is logged, with no warning, whether the
    subservices then start or not. *)
Theorem profiler_initialised_on_success (s : Service) :
  profiler_enabled s = true ->
  base_start (env s) = None ->
  admin_context (env s) = None -> gethostname (env s) = None ->
  init_from_conf (env s) = None ->
  profiler_initialized (start s).2 = true /\
  take 5 (drop (length (journal s)) (journal (start s).2))
  = [BaseStart; AdminContext; GetHostname; InitFromConf;
     LogInfo "OSProfiler initialized successfully for decision engine"] /\
  Forall (fun ev => forall msg, ev <> LogWarning msg)
         (drop (length (journal s)) (journal (start s).2)).
Proof.
  intros Hen Hbase Hac Hgh Hinit. start_cases s.
  all: split; [done|].
  all: rewrite <- ?app_assoc, drop_app_length; simpl.
  all: split; [done|]; repeat constructor; done.
Qed.

(** X12. When the base service fails to start, [start] raises its
    exception and does nothing else: the profiler is not initialised and
    no subservice is built or started. *)
Theorem base_start_failure_is_fatal (s : Service) (e : exn) :
  base_start (env s) = Some e ->
  start s = (Raise e, with_journal (journal s ++ [BaseStart]) s).
Proof.
  intros Hbase.
  unfold start, bind, external. by rewrite Hbase.
Qed.

(** X13. When the continuous handler fails to start, [start] raises its
    exception and leaves the scheduler running: the start is not undone. *)
Theorem handler_failure_leaves_scheduler_running (s : Service) (e : exn) :
  base_start (env s) = None ->
  new_scheduler (env s) = None -> scheduler_start (env s) = None ->
  new_handler (env s) = None -> handler_start (env s) = Some e ->
  (start s).1 = Raise e /\
  base_running (start s).2 = true /\
  _bg_scheduler (start s).2 = Some (mkSub true) /\
  _continuous_handler (start s).2
  = Some (default (mkSub false) (_continuous_handler s)).
Proof.
  intros Hbase Hns Hss Hnh Hhs. start_cases s.
  all: repeat split; congruence.
Qed.

(** X14. When the scheduler fails to start, [start] raises its exception
    and the continuous handler is neither built nor started. *)
Theorem scheduler_failure_skips_handler (s : Service) (e : exn) :
  base_start (env s) = None ->
  new_scheduler (env s) = None -> scheduler_start (env s) = Some e ->
  (start s).1 = Raise e /\
  _continuous_handler (start s).2 = _continuous_handler s /\
  Forall (fun ev => ev <> NewHandler /\ ev <> HandlerStart)
         (drop (length (journal s)) (journal (start s).2)).
Proof.
  intros Hbase Hns Hss. start_cases s.
  all: split; [congruence|]; split; [done|].
  all: rewrite <- ?app_assoc, drop_app_length; simpl.
  all: repeat constructor; done.
Qed.

(** X15. The [bg_scheduler] and [continuous_handler] properties build
    their object once: after an access that returned, the object is there
    and a further access does nothing; after an access that raised, it is
    still missing, so that the next access tries again. *)
Theorem subservices_built_once (s : Service) :
  ((bg_scheduler s).1 = Return tt ->
   is_Some (_bg_scheduler (bg_scheduler s).2) /\
   bg_scheduler (bg_scheduler s).2 = (Return tt, (bg_scheduler s).2)) /\
  (forall e, (bg_scheduler s).1 = Raise e ->
             _bg_scheduler (bg_scheduler s).2 = None) /\
  ((continuous_handler s).1 = Return tt ->
   is_Some (_continuous_handler (continuous_handler s).2) /\
   continuous_handler (continuous_handler s).2
   = (Return tt, (continuous_handler s).2)) /\
  (forall e, (continuous_handler s).1 = Raise e ->
             _continuous_handler (continuous_handler s).2 = None).
Proof.
  unfold bg_scheduler, continuous_handler, external.
  destruct (_bg_scheduler s) eqn:Hbg, (_continuous_handler s) eqn:Hch;
    destruct (new_scheduler (env s)), (new_handler (env s)); simpl;
    rewrite ?Hbg, ?Hch; repeat split; eauto; try done.
Qed.

(** When [start] returns, the base service and the two subservices are
    running. *)
Lemma start_leaves_all_running (s : Service) :
  (start s).1 = Return tt ->
  base_running (start s).2 = true /\
  _bg_scheduler (start s).2 = Some (mkSub true) /\
  _continuous_handler (start s).2 = Some (mkSub true).
Proof. start_cases s. all: done. Qed.

(** X16. A second [start] after one that returned builds no subservice
    again: it starts the scheduler and the handler that are there. *)
Theorem second_start_builds_nothing (s : Service) :
  (start s).1 = Return tt ->
  Forall (fun ev => ev <> NewScheduler /\ ev <> NewHandler)
         (drop (length (journal (start s).2)) (journal (start (start s).2).2)).
Proof.
  intros Hok.
  destruct (start_leaves_all_running s Hok) as (_ & Hb & Hc).
  generalize dependent (start s).2. intros s1 Hb Hc. clear Hok.
  start_cases s1.
  all: rewrite <- ?app_assoc, drop_app_length; simpl.
  all: repeat constructor; done.
Qed.

End ServiceStart.

(** ** Stopping, waiting for and resetting the decision engine *)

Section ServiceLifecycle.

Import DecisionEngine Lifecycle.

(** Unfolds a run of [stop], [wait] or [reset] on [p] and splits it along
    the outcomes of the operations and the scheduler of [p]. *)
Ltac lifecycle_cases p :=
  unfold stop, wait, reset, bind, on_service, external, bg_scheduler,
    DecisionEngine.external; simpl;
  repeat (match goal with
          | |- context [match ?f (lenv p) with _ => _ end] =>
              destruct (f (lenv p)) eqn:?
          | |- context [match _bg_scheduler (service p) with _ => _ end] =>
              destruct (_bg_scheduler (service p)) eqn:?
          | |- context [match ?f (env (service p)) with _ => _ end] =>
              destruct (f (env (service p))) eqn:?
          end; simpl);
  try congruence.

(** X17. [stop], [wait] and [reset] act on the base service and on the
    scheduler only: they leave the continuous handler and the profiler as
    they are, whatever happens.  In particular the handler that [start]
    started is still running after [stop]. *)
Theorem lifecycle_leaves_handler_alone (p : Process) :
  (_continuous_handler (service (stop p).2) = _continuous_handler (service p) /\
   profiler_initialized (service (stop p).2) = profiler_initialized (service p)) /\
  (_continuous_handler (service (wait p).2) = _continuous_handler (service p) /\
   profiler_initialized (service (wait p).2) = profiler_initialized (service p)) /\
  (_continuous_handler (service (reset p).2) = _continuous_handler (service p) /\
   profiler_initialized (service (reset p).2) = profiler_initialized (service p)).
Proof.
  repeat split; lifecycle_cases p; done.
Qed.

(** X18. When the base service fails to stop, to wait or to reset, the
    method raises its exception and the scheduler is not asked anything,
    nor built if it was not there. *)
Theorem base_failure_skips_scheduler (p : Process) (e : exn) :
  (base_stop (lenv p) = Some e ->
   stop p = (Raise e, mkProcess (service p) (lenv p) (calls p ++ [BaseStop]))) /\
  (base_wait (lenv p) = Some e ->
   wait p = (Raise e, mkProcess (service p) (lenv p) (calls p ++ [BaseWait]))) /\
  (base_reset (lenv p) = Some e ->
   reset p = (Raise e, mkProcess (service p) (lenv p) (calls p ++ [BaseReset]))).
Proof.
  repeat split; intros H; unfold stop, wait, reset, bind, external;
    by rewrite H.
Qed.

(** X19. [stop] on a service whose scheduler was never built, one that was
    not started for instance, builds the scheduler in order to stop it. *)
Theorem stop_builds_missing_scheduler (p : Process) :
  _bg_scheduler (service p) = None ->
  base_stop (lenv p) = None ->
  new_scheduler (env (service p)) = None ->
  scheduler_stop (lenv p) = None ->
  (stop p).1 = Return tt /\
  journal (service (stop p).2) = journal (service p) ++ [NewScheduler] /\
  calls (stop p).2 = calls p ++ [BaseStop; SchedulerStop] /\
  _bg_scheduler (service (stop p).2) = Some (mkSub false).
Proof.
  intros Hnone Hbase Hnew Hstop. lifecycle_cases p.
  by rewrite <- app_assoc.
Qed.

(** X20. After a [start] that returned, a [stop] that returns leaves the
    base service and the scheduler stopped and the continuous handler
    running, and has built nothing. *)
Theorem stop_after_start (p : Process) :
  (Lifecycle.start p).1 = Return tt ->
  let p1 := (Lifecycle.start p).2 in
  (stop p1).1 = Return tt ->
  base_running (service (stop p1).2) = false /\
  _bg_scheduler (service (stop p1).2) = Some (mkSub false) /\
  _continuous_handler (service (stop p1).2) = Some (mkSub true) /\
  journal (service (stop p1).2) = journal (service p1).
Proof.
  intros Hok.
  assert (Hboth : _bg_scheduler (service (Lifecycle.start p).2)
                  = Some (mkSub true) /\
                  _continuous_handler (service (Lifecycle.start p).2)
                  = Some (mkSub true)).
  { revert Hok. unfold Lifecycle.start, on_service.
    pose proof (start_leaves_all_running (service p)) as Hrun.
    destruct (DecisionEngine.start (service p)) as [r s1]. simpl in *.
    intros Hr. by destruct (Hrun Hr) as (_ & ? & ?). }
  destruct Hboth as (Hb & Hc).
  generalize dependent (Lifecycle.start p).2. intros p1 Hb Hc. clear Hok.
  simpl. lifecycle_cases p1.
  all: intros; try discriminate; repeat split; congruence.
Qed.

End ServiceLifecycle.

(** ** The further properties on concrete runs *)

Import Cases Lifecycle.



(** A callable instrumented twice, with readings of 100, 110, 120 and
    130 MB: the outer tracker brackets the inner one, and each publishes
    after its span is closed. *)
Example nested_run :
  nested.1 = Return (PyInt 2) /\
  heap nested.2
  = [mkTracker "outer" PyNone (Some 100%float) (Some 130%float);
     mkTracker "inner" (PyInt 1) (Some 110%float) (Some 120%float)] /\
  starts (tracer_calls nested.2) = 2 /\
  stops (tracer_calls nested.2) = 4 /\
  take 3 (tracer_calls nested.2)
  = [TraceStart "outer"; TraceStart "inner"; TraceStop None].
Proof. by_run. Qed.


Lemma scheduler_started_before_handler_witness :
  exists pre mid,
    journal (DecisionEngine.start (__init__ true env_ok)).2
    = [] ++ BaseStart :: pre ++ SchedulerStart :: mid ++ [HandlerStart] /\
    Forall (fun ev => ev <> BaseStart /\ ev <> SchedulerStart /\ ev <> HandlerStart)
           (pre ++ mid).
Proof.
  apply (scheduler_started_before_handler (__init__ true env_ok)).
  reflexivity.
Defined.

Lemma no_profiler_init_when_disabled_witness :
  profiler_initialized (DecisionEngine.start (__init__ false env_ok)).2 = false /\
  journal (DecisionEngine.start (__init__ false env_ok)).2
  = [BaseStart; NewScheduler; SchedulerStart; NewHandler; HandlerStart].
Proof.
  destruct (no_profiler_init_when_disabled (__init__ false env_ok) eq_refl)
    as (H & _).
  split; [exact H | reflexivity].
Defined.

Lemma profiler_initialised_on_success_witness :
  profiler_initialized (DecisionEngine.start (__init__ true env_ok)).2 = true /\
  journal (DecisionEngine.start (__init__ true env_ok)).2
  = [BaseStart; AdminContext; GetHostname; InitFromConf;
     LogInfo "OSProfiler initialized successfully for decision engine";
     NewScheduler; SchedulerStart; NewHandler; HandlerStart].
Proof.
  destruct (profiler_initialised_on_success (__init__ true env_ok)
              eq_refl eq_refl eq_refl eq_refl eq_refl)
    as (H & _).
  split; [exact H | reflexivity].
Defined.

Lemma base_start_failure_is_fatal_witness :
  DecisionEngine.start (__init__ true env_base_fails)
  = (Raise (Exn "RuntimeError" "rpc server"),
     mkService true env_base_fails false false None None [BaseStart]).
Proof.
  apply (base_start_failure_is_fatal (__init__ true env_base_fails)).
  reflexivity.
Defined.

Lemma handler_failure_leaves_scheduler_running_witness :
  let s' := (DecisionEngine.start (__init__ false env_handler_fails)).2 in
  (DecisionEngine.start (__init__ false env_handler_fails)).1
  = Raise (Exn "RuntimeError" "handler") /\
  _bg_scheduler s' = Some (mkSub true) /\
  _continuous_handler s' = Some (mkSub false).
Proof.
  destruct (handler_failure_leaves_scheduler_running
              (__init__ false env_handler_fails) (Exn "RuntimeError" "handler")
              eq_refl eq_refl eq_refl eq_refl eq_refl)
    as (H1 & _ & H3 & H4).
  repeat split; assumption.
Defined.

Lemma scheduler_failure_skips_handler_witness :
  let s' := (DecisionEngine.start (__init__ false env_scheduler_fails)).2 in
  (DecisionEngine.start (__init__ false env_scheduler_fails)).1
  = Raise (Exn "RuntimeError" "scheduler") /\
  _continuous_handler s' = None /\
  journal s' = [BaseStart; NewScheduler; SchedulerStart].
Proof.
  destruct (scheduler_failure_skips_handler
              (__init__ false env_scheduler_fails)
              (Exn "RuntimeError" "scheduler") eq_refl eq_refl eq_refl)
    as (H1 & H2 & _).
  split; [exact H1|]. split; [exact H2 | reflexivity].
Defined.

Lemma second_start_builds_nothing_witness :
  let s1 := (DecisionEngine.start (__init__ false env_ok)).2 in
  Forall (fun ev => ev <> NewScheduler /\ ev <> NewHandler)
         (drop (length (journal s1)) (journal (DecisionEngine.start s1).2)) /\
  drop (length (journal s1)) (journal (DecisionEngine.start s1).2)
  = [BaseStart; SchedulerStart; HandlerStart].
Proof.
  split; [|reflexivity].
  apply (second_start_builds_nothing (__init__ false env_ok)).
  reflexivity.
Defined.

Lemma stop_builds_missing_scheduler_witness :
  (stop (built false env_ok)).1 = Return tt /\
  journal (service (stop (built false env_ok)).2) = [NewScheduler] /\
  calls (stop (built false env_ok)).2 = [BaseStop; SchedulerStop].
Proof.
  destruct (stop_builds_missing_scheduler (built false env_ok)
              eq_refl eq_refl eq_refl eq_refl)
    as (H1 & H2 & H3 & _).
  repeat split; assumption.
Defined.

Lemma stop_after_start_witness :
  let p1 := (Lifecycle.start (built false env_ok)).2 in
  _bg_scheduler (service (stop p1).2) = Some (mkSub false) /\
  _continuous_handler (service (stop p1).2) = Some (mkSub true).
Proof.
  destruct (stop_after_start (built false env_ok) eq_refl eq_refl)
    as (_ & H2 & H3 & _).
  split; assumption.
Defined.
